(** * OERPLib: the RPC connector factories ([oerplib/rpc/__init__.py])

    A shallow embedding of the module [oerplib.rpc]: the registry
    [PROTOCOLS], the generic factory [get_connector] and the JSON factory
    [get_json_connector], followed by the properties the design document
    states about them.

    The document speaks of [create_connector] / [create_json_connector],
    of [UnsupportedProtocol] and of a [use_tls] flag; in the code these are
    [get_connector] / [get_json_connector], [error.ConnectorError] and the
    [ssl] parameter.  Names of functions, classes and parameters are read
    through this correspondence; the protocol identifiers are data, the
    strings a caller passes, and are taken literally. *)

From Stdlib Require Import Ascii String.
From stdpp Require Import base option list gmap strings.

Local Open Scope string_scope.
Local Open Scope Z_scope.

(** ** Python values and outcomes *)

(** The values the factories receive for [server], [port], [timeout],
    [version] and [ssl].  The factories never inspect them (apart from the
    truth value of [ssl]); they are handed to the connector class as they
    are. *)
Inductive value : Type :=
  | PyNone
  | PyBool (b : bool)
  | PyInt (n : Z)
  | PyStr (s : string).

(** Truth value of an object, as tested by [if ssl:]. *)
Definition truthy (v : value) : bool :=
  match v with
  | PyNone => false
  | PyBool b => b
  | PyInt n => negb (n =? 0)
  | PyStr s => negb (String.eqb s "")
  end.

(** Exceptions.  [ConnectorError] is [oerplib.rpc.error.ConnectorError];
    [KeyError] is what subscripting a dict with an absent key raises;
    [OtherError] stands for whatever else a connector class may raise. *)
Inductive exn : Type :=
  | ConnectorError (txt : string)
  | KeyError (key : string)
  | OtherError (cls txt : string).

Inductive result (A : Type) : Type :=
  | Ok (a : A)
  | Raise (e : exn).
Arguments Ok {A} a.
Arguments Raise {A} e.

Definition is_ok {A} (r : result A) : bool :=
  match r with Ok _ => true | Raise _ => false end.

(** A parameter that has a default value in a [def]: the caller either
    leaves it out or passes something. *)
Inductive param (A : Type) : Type :=
  | omitted
  | passed (a : A).
Arguments omitted {A}.
Arguments passed {A} a.

Definition or_default {A} (d : A) (p : param A) : A :=
  match p with omitted => d | passed a => a end.

(** ** Computations: a world that is threaded through, and exceptions

    [W] is the state of everything outside the interpreter (the network);
    a computation maps the world before to the world after and either a
    value or a raised exception. *)
Definition M (W A : Type) : Type := W → W * result A.

Definition ret {W A} (a : A) : M W A := λ w, (w, Ok a).

Definition raise {W A} (e : exn) : M W A := λ w, (w, Raise e).

Definition bind {W A B} (m : M W A) (k : A → M W B) : M W B :=
  λ w, match m w with
       | (w', Ok a) => k a w'
       | (w', Raise e) => (w', Raise e)
       end.

Notation "x <- m ;; k" := (bind m (λ x, k))
  (at level 100, m at next level, k at level 200, right associativity).

Definition run {W A} (m : M W A) (w : W) : W * result A := m w.

(** ** The module [oerplib.rpc.connector]

    [from oerplib.rpc import connector, error]: the five connector classes
    are defined in [connector.py].  The factories only call them, so a
    class is a name, and instantiating one is an operation of the
    interface below: it may touch the world and it may raise. *)
Inductive ConnectorClass : Type :=
  | ConnectorXMLRPC
  | ConnectorXMLRPCSSL
  | ConnectorNetRPC
  | ConnectorJSONRPC
  | ConnectorJSONRPCSSL.

Class ConnectorModule : Type := {
  World : Type;
  Connector : Type;
  (** [cls(server, port, timeout, version)] *)
  new : ConnectorClass → value → value → value → value → M World Connector;
}.

(** ** The interpreter

    [PROTOCOLS.keys()] is a list in Python 2 and a view in Python 3 (whose
    [str] is [dict_keys([...])]), and the order in which a dict yields its
    keys is the interpreter's: hash order before 3.7, insertion order
    since. *)
Record Interpreter : Type := {
  keys_is_view : bool;
  keys_order : list string;
}.

(** ** Strings: [repr], [str] of a list, and [str.format] *)

(** [repr] of a string without quotes, backslashes or control characters
    (the keys of the registry are such strings). *)
Definition py_repr (s : string) : string := "'" +:+ s +:+ "'".

Fixpoint join (sep : string) (l : list string) : string :=
  match l with
  | [] => ""
  | [s] => s
  | s :: l' => s +:+ sep +:+ join sep l'
  end.

(** [str] of a list of strings. *)
Definition str_list (l : list string) : string :=
  "[" +:+ join ", " (map py_repr l) +:+ "]".

Definition digit_of (c : ascii) : option nat :=
  let n := nat_of_ascii c in
  if bool_decide (48 ≤ n ≤ 57)%nat then Some (n - 48)%nat else None.

(** [txt.format(a0, a1, ...)] for templates whose replacement fields are a
    single decimal index ([{0}], [{1}], ...) and that have no escaped
    braces; the arguments are given by their [str]. *)
Fixpoint format (txt : string) (args : list string) : string :=
  match txt with
  | "" => ""
  | String "{"%char (String d (String "}"%char rest) as tl) =>
      match digit_of d with
      | Some i => default "" (args !! i) +:+ format rest args
      | None => String "{"%char (format tl args)
      end
  | String c rest => String c (format rest args)
  end.

(** ** [oerplib/rpc/__init__.py] *)

(** [PROTOCOLS = {'xmlrpc': ..., 'xmlrpc+ssl': ..., 'netrpc': ...}] *)
Definition PROTOCOLS : gmap string ConnectorClass :=
  {[ "xmlrpc" := ConnectorXMLRPC;
     "xmlrpc+ssl" := ConnectorXMLRPCSSL;
     "netrpc" := ConnectorNetRPC ]}.

(** [str(PROTOCOLS.keys())] *)
Definition str_keys (py : Interpreter) : string :=
  if keys_is_view py
  then "dict_keys(" +:+ str_list (keys_order py) +:+ ")"
  else str_list (keys_order py).

(** An interpreter is sound for the registry when its iteration order
    enumerates the keys of [PROTOCOLS], each once. *)
Definition sound (py : Interpreter) : Prop :=
  keys_order py ≡ₚ elements (dom PROTOCOLS).

(** CPython 3.7 and later: a view, in insertion order. *)
Definition cpython3 : Interpreter :=
  {| keys_is_view := true;
     keys_order := ["xmlrpc"; "xmlrpc+ssl"; "netrpc"] |}.

(** [d[k]] *)
Definition getitem {W V} (d : gmap string V) (k : string) : M W V :=
  match d !! k with
  | Some v => ret v
  | None => raise (KeyError k)
  end.

Section Factories.
Context {CM : ConnectorModule}.
Variable py : Interpreter.

(** [def get_connector(server, port=8069, protocol='xmlrpc',
                       timeout=120, version=None)] *)
Definition get_connector (server : value) (port : param value)
    (protocol : param string) (timeout version : param value)
    : M World Connector :=
  let port := or_default (PyInt 8069) port in
  let protocol := or_default "xmlrpc" protocol in
  let timeout := or_default (PyInt 120) timeout in
  let version := or_default PyNone version in
  if bool_decide (protocol ∉ dom PROTOCOLS) then
    let txt := "The protocol '{0}' is not supported. Please choose a protocol among these ones: {1}" in
    let txt := format txt [protocol; str_keys py] in
    raise (ConnectorError txt)
  else
    cls <- getitem PROTOCOLS protocol ;;
    new cls server port timeout version.

(** [def get_json_connector(server, port=8069, timeout=120,
                            version=None, ssl=False)] *)
Definition get_json_connector (server : value)
    (port timeout version ssl : param value) : M World Connector :=
  let port := or_default (PyInt 8069) port in
  let timeout := or_default (PyInt 120) timeout in
  let version := or_default PyNone version in
  let ssl := or_default (PyBool false) ssl in
  if truthy ssl then
    new ConnectorJSONRPCSSL server port timeout version
  else
    new ConnectorJSONRPC server port timeout version.
End Factories.

(** ** The connector object, after the design document

    [oerplib/rpc/connector.py] is not part of the sources at hand.  What
    follows is the connector as the design document describes it
    (its sections 3 and 4.2): an endpoint, a protocol variant and an API
    version that is either still unresolved or pinned. *)
Module SpecConnector.

(** A request: [{service, method, args}]. *)
Record Request : Type := {
  service : string;
  method : string;
  args : list value;
}.

(** A response: a success value or a fault descriptor. *)
Inductive Response : Type :=
  | Success (v : value)
  | Fault (kind message : string).

(** What goes over the wire: the capability probe that resolves the API
    version, and the round trip of a remote call. *)
Inductive Event : Type :=
  | VersionProbe
  | RoundTrip (req : Request).

(** The network: the server behind the endpoint (the newest API version
    the probe settles on, and its answer to each request) and the
    traffic so far, oldest first. *)
Record Net : Type := {
  newest_version : string;
  answer : Request → Response;
  traffic : list Event;
}.

Definition emit (e : Event) (w : Net) : Net :=
  {| newest_version := newest_version w;
     answer := answer w;
     traffic := traffic w ++ [e] |}.

Inductive VersionState : Type :=
  | Unresolved
  | Resolved (v : value).

Record Connector : Type := {
  c_class : ConnectorClass;
  c_server : value;
  c_port : value;
  c_timeout : value;
  c_version : VersionState;
}.

(** Modelled from the spec: the constructors of the connector classes
    (oerplib/rpc/connector.py is missing).  Section 4.1: construction has
    no side effect beyond building the object and no network I/O; section
    3: the endpoint is fixed at construction and the API version is a
    string or unset. *)
Definition construct (cls : ConnectorClass) (server port timeout version : value)
    : M Net Connector :=
  ret {| c_class := cls;
         c_server := server;
         c_port := port;
         c_timeout := timeout;
         c_version := match version with
                      | PyNone => Unresolved
                      | v => Resolved v
                      end |}.

(** Modelled from the spec: version resolution (section 4.2, missing
    from the sources).  When the version is unset the connector probes
    the server, picks the newest version and pins it; a pinned version
    is left alone.  The connector is an object mutated in place, so its
    new state is returned. *)
Definition resolve_version (c : Connector) (w : Net) : Net * Connector :=
  match c_version c with
  | Resolved _ => (w, c)
  | Unresolved =>
      (emit VersionProbe w,
       {| c_class := c_class c;
          c_server := c_server c;
          c_port := c_port c;
          c_timeout := c_timeout c;
          c_version := Resolved (PyStr (newest_version w)) |})
  end.

(** Modelled from the spec: [connector.service(name).call(method, args)]
    (section 4.2, missing from the sources): resolve the version on
    first use, perform one round trip, return the decoded value or raise
    the normalized fault. *)
Definition call (c : Connector) (req : Request) (w : Net)
    : Net * Connector * result value :=
  let '(w, c) := resolve_version c w in
  let w := emit (RoundTrip req) w in
  (w, c, match answer w req with
         | Success v => Ok v
         | Fault kind message => Raise (OtherError "RemoteFault" message)
         end).

(** A session: the calls of [reqs] one after the other on the same
    connector object. *)
Fixpoint calls (c : Connector) (reqs : list Request) (w : Net)
    : Net * Connector * list (result value) :=
  match reqs with
  | [] => (w, c, [])
  | req :: reqs' =>
      let '(w, c, r) := call c req w in
      let '(w, c, rs) := calls c reqs' w in
      (w, c, r :: rs)
  end.

Definition is_probe (e : Event) : bool :=
  match e with VersionProbe => true | RoundTrip _ => false end.

(** Number of version probes in a stretch of traffic. *)
Definition probes (evs : list Event) : nat :=
  length (filter (λ e, is_probe e = true) evs).

End SpecConnector.

(** The design document's connector as an implementation of the
    interface the factories are written against. *)
Definition spec_connector : ConnectorModule :=
  {| World := SpecConnector.Net;
     Connector := SpecConnector.Connector;
     new := SpecConnector.construct |}.

(** A server that answers every request with [1] and speaks API 7.0,
    before any traffic. *)
Definition quiet_net : SpecConnector.Net :=
  {| SpecConnector.newest_version := "7.0";
     SpecConnector.answer := λ _, SpecConnector.Success (PyInt 1);
     SpecConnector.traffic := [] |}.

(** [s] occurs in [t]. *)
Definition occurs_in (s t : string) : Prop :=
  ∃ pre post, t = pre +:+ s +:+ post.

(** ** [oerplib/service/inspect/__init__.py]

    The [Inspect] service.  Its three methods import their backend when
    they are called and hand it the session and their arguments. *)

(** The arguments of the [Inspect] methods: [None], booleans, integers,
    strings, and lists of such (model names and patterns). *)
#[warnings="-register-all"]
Inductive pyobj : Type :=
  | PyAtom (v : value)
  | PyList (items : list pyobj).

(** What [Inspect] is written against: the session object [oerp] it is
    given, and the three backends.  [from m import x] inside a method runs
    when the method is called: it may load the module (an effect on the
    interpreter and beyond), it may raise, and when it succeeds it yields
    the callable that the method then applies. *)
Class InspectBackends : Type := {
  OERP : Type;
  Env : Type;
  RelationsObject : Type;
  OnChangeMap : Type;
  DependenciesObject : Type;
  (** [from oerplib.service.inspect.relations import Relations] *)
  import_Relations :
    M Env (OERP → pyobj → pyobj → pyobj → pyobj → pyobj → pyobj → pyobj →
           M Env RelationsObject);
  (** [from oerplib.service.inspect.on_change import scan_on_change] *)
  import_scan_on_change : M Env (OERP → pyobj → M Env OnChangeMap);
  (** [from oerplib.service.inspect.dependencies import Dependencies] *)
  import_Dependencies :
    M Env (OERP → pyobj → pyobj → pyobj → pyobj → M Env DependenciesObject);
}.

Section InspectService.
Context {IB : InspectBackends}.

(** [class Inspect(object)]: its only attribute is [_oerp]. *)
Record Inspect : Type := { _oerp : OERP }.

(** [def __init__(self, oerp): self._oerp = oerp] *)
Definition Inspect__init__ (oerp : OERP) : Inspect := {| _oerp := oerp |}.

(** [def relations(self, models, maxdepth=1, whitelist=None,
                   blacklist=None, attrs_whitelist=None,
                   attrs_blacklist=None, config=None)] *)
Definition relations (self : Inspect) (models : pyobj)
    (maxdepth whitelist blacklist attrs_whitelist attrs_blacklist
     config : param pyobj) : M Env RelationsObject :=
  let maxdepth := or_default (PyAtom (PyInt 1)) maxdepth in
  let whitelist := or_default (PyAtom PyNone) whitelist in
  let blacklist := or_default (PyAtom PyNone) blacklist in
  let attrs_whitelist := or_default (PyAtom PyNone) attrs_whitelist in
  let attrs_blacklist := or_default (PyAtom PyNone) attrs_blacklist in
  let config := or_default (PyAtom PyNone) config in
  Relations <- import_Relations ;;
  Relations (_oerp self) models maxdepth whitelist blacklist
            attrs_whitelist attrs_blacklist config.

(** [def scan_on_change(self, models)] *)
Definition scan_on_change (self : Inspect) (models : pyobj)
    : M Env OnChangeMap :=
  scan_on_change <- import_scan_on_change ;;
  scan_on_change (_oerp self) models.

(** [def dependencies(self, models=None, models_blacklist=None,
                      restrict=False, config=None)] *)
Definition dependencies (self : Inspect)
    (models models_blacklist restrict config : param pyobj)
    : M Env DependenciesObject :=
  let models := or_default (PyAtom PyNone) models in
  let models_blacklist := or_default (PyAtom PyNone) models_blacklist in
  let restrict := or_default (PyAtom (PyBool false)) restrict in
  let config := or_default (PyAtom PyNone) config in
  Dependencies <- import_Dependencies ;;
  Dependencies (_oerp self) models models_blacklist restrict config.
End InspectService.

(** Two installations to run [Inspect] on.  In both the session is a
    label and the environment is the list of modules whose import was
    attempted, oldest first. *)

(** An installation whose inspection backends cannot be imported. *)
Definition bare_install : InspectBackends :=
  {| OERP := string;
     Env := list string;
     RelationsObject := unit;
     OnChangeMap := unit;
     DependenciesObject := unit;
     import_Relations := λ env,
       ((env ++ ["oerplib.service.inspect.relations"])%list,
        Raise (OtherError "ImportError" "cannot import name Relations"));
     import_scan_on_change := λ env,
       ((env ++ ["oerplib.service.inspect.on_change"])%list,
        Raise (OtherError "ImportError" "cannot import name scan_on_change"));
     import_Dependencies := λ env,
       ((env ++ ["oerplib.service.inspect.dependencies"])%list,
        Raise (OtherError "ImportError" "cannot import name Dependencies")) |}.

(** An installation whose backends import and answer with what they were
    called on. *)
Definition echo_install : InspectBackends :=
  {| OERP := string;
     Env := list string;
     RelationsObject := string * list pyobj;
     OnChangeMap := string * list pyobj;
     DependenciesObject := string * list pyobj;
     import_Relations := λ env,
       ((env ++ ["oerplib.service.inspect.relations"])%list,
        Ok (λ oerp a b c d e f g, ret (oerp, [a; b; c; d; e; f; g])));
     import_scan_on_change := λ env,
       ((env ++ ["oerplib.service.inspect.on_change"])%list,
        Ok (λ oerp a, ret (oerp, [a])));
     import_Dependencies := λ env,
       ((env ++ ["oerplib.service.inspect.dependencies"])%list,
        Ok (λ oerp a b c d, ret (oerp, [a; b; c; d]))) |}.

(** ** How the returned connectors are used, as the module documents it

    [connector.py] is not among the sources; what [oerplib/rpc/__init__.py]
    tells of the objects its factories return is in its docstrings.  The
    module docstring, on the connector returned by [get_connector]: RPC
    services (like db, common or object) and their methods associated can
    be accessed dynamically from the connector returned, as in
    [cnt.common.login('database', 'user', 'passwd')] and
    [cnt.object.execute('database', uid, 'passwd', 'res.partner', 'read', 42)].
    The docstring of [get_json_connector]: the JSON-RPC protocol can not be
    used in the same way that XML-RPC and Net-RPC, the API is completely
    different. *)
Inductive Usage : Type :=
  | RpcServices     (* cnt.<service>.<method>(args) *)
  | JsonRpcApi.     (* an API of its own *)

Definition documented_usage (cls : ConnectorClass) : Usage :=
  match cls with
  | ConnectorXMLRPC | ConnectorXMLRPCSSL | ConnectorNetRPC => RpcServices
  | ConnectorJSONRPC | ConnectorJSONRPCSSL => JsonRpcApi
  end.

(** A connector module whose classes insist on an integer port: they
    raise [ConnectorError] for any other port and touch nothing.  It is one
    way the classes of [connector.py] may behave, to run the factories
    against constructors that can fail. *)
Definition checking_connector : ConnectorModule :=
  {| World := unit;
     Connector := ConnectorClass * (value * value * value * value);
     new := λ cls server port timeout version,
       match port with
       | PyInt _ => ret (cls, (server, port, timeout, version))
       | _ => raise (ConnectorError "The port is invalid. An integer is required.")
       end |}.

(** * Properties *)

(** ** Strings *)

Lemma append_assoc (a b c : string) : (a +:+ b) +:+ c = a +:+ b +:+ c.
Proof. induction a as [|x a IH]; [done | exact (f_equal (String x) IH)]. Qed.

Lemma append_empty_r (a : string) : a +:+ "" = a.
Proof. induction a as [|x a IH]; [done | exact (f_equal (String x) IH)]. Qed.

Lemma occurs_in_refl (s : string) : occurs_in s s.
Proof. exists "", "". by rewrite append_empty_r. Qed.

Lemma occurs_in_app_l (s t a : string) :
  occurs_in s t → occurs_in s (a +:+ t).
Proof.
  intros (pre & post & ->). exists (a +:+ pre), post.
  by rewrite append_assoc.
Qed.

Lemma occurs_in_app_r (s t b : string) :
  occurs_in s t → occurs_in s (t +:+ b).
Proof.
  intros (pre & post & ->). exists pre, (post +:+ b).
  by rewrite !append_assoc.
Qed.

Lemma occurs_in_app (s t a b : string) :
  occurs_in s t → occurs_in s (a +:+ t +:+ b).
Proof. intros Hst. by apply occurs_in_app_l, occurs_in_app_r. Qed.

Lemma occurs_in_join (sep s : string) (l : list string) :
  s ∈ l → occurs_in s (join sep l).
Proof.
  induction l as [|x l IH]; [by intros ?%elem_of_nil |].
  intros [->|Hin]%elem_of_cons.
  - destruct l as [|y l]; simpl; [apply occurs_in_refl |].
    apply occurs_in_app_r, occurs_in_refl.
  - destruct l as [|y l]; [by apply elem_of_nil in Hin |].
    change (join sep (x :: y :: l)) with (x +:+ sep +:+ join sep (y :: l)).
    by apply occurs_in_app_l, occurs_in_app_l, IH.
Qed.

Lemma occurs_in_str_list (k : string) (l : list string) :
  k ∈ l → occurs_in (py_repr k) (str_list l).
Proof.
  intros Hk. unfold str_list. apply occurs_in_app, occurs_in_join.
  apply list_elem_of_In, in_map, list_elem_of_In, Hk.
Qed.

Lemma occurs_in_str_keys (py : Interpreter) (k : string) :
  k ∈ keys_order py → occurs_in (py_repr k) (str_keys py).
Proof.
  intros Hk. unfold str_keys. destruct (keys_is_view py).
  - by apply occurs_in_app, occurs_in_str_list.
  - by apply occurs_in_str_list.
Qed.

Lemma format_unsupported (protocol keys : string) :
  format "The protocol '{0}' is not supported. Please choose a protocol among these ones: {1}"
         [protocol; keys]
  = "The protocol '" +:+ protocol +:+
    "' is not supported. Please choose a protocol among these ones: " +:+ keys.
Proof.
  transitivity ("The protocol '" +:+ protocol +:+
    "' is not supported. Please choose a protocol among these ones: " +:+
    keys +:+ ""); [reflexivity |].
  by rewrite append_empty_r.
Qed.

(** ** The registry *)

Lemma PROTOCOLS_dom :
  dom PROTOCOLS = ({[ "xmlrpc"; "xmlrpc+ssl"; "netrpc" ]} : gset string).
Proof. unfold PROTOCOLS. rewrite !dom_insert_L, dom_singleton_L. set_solver. Qed.

Lemma PROTOCOLS_lookup (p : string) (cls : ConnectorClass) :
  PROTOCOLS !! p = Some cls ↔
  (p = "xmlrpc" ∧ cls = ConnectorXMLRPC) ∨
  (p = "xmlrpc+ssl" ∧ cls = ConnectorXMLRPCSSL) ∨
  (p = "netrpc" ∧ cls = ConnectorNetRPC).
Proof.
  unfold PROTOCOLS. split.
  - intros Hp.
    destruct (decide (p = "xmlrpc")) as [->|?]; [simplify_map_eq; auto |].
    destruct (decide (p = "xmlrpc+ssl")) as [->|?]; [simplify_map_eq; auto |].
    destruct (decide (p = "netrpc")) as [->|?]; [simplify_map_eq; auto |].
    simplify_map_eq.
  - intros [[-> ->]|[[-> ->]|[-> ->]]]; by simplify_map_eq.
Qed.

Lemma PROTOCOLS_keys (p : string) :
  p ∈ dom PROTOCOLS ↔ p = "xmlrpc" ∨ p = "xmlrpc+ssl" ∨ p = "netrpc".
Proof.
  rewrite PROTOCOLS_dom, !elem_of_union, !elem_of_singleton. tauto.
Qed.

Lemma cpython3_sound : sound cpython3.
Proof.
  unfold sound.
  assert (elements (dom PROTOCOLS) = ["netrpc"; "xmlrpc+ssl"; "xmlrpc"]) as ->
    by (vm_compute; reflexivity).
  exact (Permutation_rev ["xmlrpc"; "xmlrpc+ssl"; "netrpc"]).
Qed.

Lemma sound_keys (py : Interpreter) (k : string) :
  sound py → k ∈ dom PROTOCOLS ↔ k ∈ keys_order py.
Proof.
  unfold sound. intros Hpy. by rewrite Hpy, elem_of_elements.
Qed.

(** ** The generic factory, case by case *)

Section FactoryLemmas.
Context {CM : ConnectorModule}.
Implicit Types (py : Interpreter) (server : value) (protocol : string).
Implicit Types (port timeout version : param value) (w : World).

Lemma get_connector_raise_case py server port protocol timeout version w :
  protocol ∉ dom PROTOCOLS →
  run (get_connector py server port (passed protocol) timeout version) w
  = (w, Raise (ConnectorError
      ("The protocol '" +:+ protocol +:+
       "' is not supported. Please choose a protocol among these ones: " +:+
       str_keys py))).
Proof.
  intros Hp. unfold get_connector, run. cbn [or_default].
  rewrite bool_decide_eq_true_2 by done.
  by rewrite format_unsupported.
Qed.

Lemma get_connector_new_case py server port protocol timeout version cls :
  PROTOCOLS !! protocol = Some cls →
  get_connector py server port (passed protocol) timeout version
  = new cls server (or_default (PyInt 8069) port)
        (or_default (PyInt 120) timeout) (or_default PyNone version).
Proof.
  intros Hp. unfold get_connector. cbn [or_default].
  rewrite bool_decide_eq_false_2
    by (intros Hn; apply Hn, elem_of_dom; eauto).
  unfold getitem. rewrite Hp. reflexivity.
Qed.
End FactoryLemmas.

(** ** The connector of the design document *)

Section SpecConnectorLemmas.
Import SpecConnector.
Implicit Types (c : Connector) (w : Net) (req : Request).

Lemma probes_emit (e : Event) w :
  probes (traffic (emit e w))
  = (probes (traffic w) + if is_probe e then 1 else 0)%nat.
Proof.
  unfold probes, emit; simpl. rewrite filter_app, length_app.
  f_equal. destruct e; reflexivity.
Qed.

Lemma call_resolved c req w v :
  c_version c = Resolved v →
  (call c req w).1.2 = c ∧
  probes (traffic (call c req w).1.1) = probes (traffic w).
Proof.
  intros Hv. unfold call, resolve_version. rewrite Hv.
  cbv beta iota zeta. cbn [fst snd].
  split; [done |]. rewrite probes_emit. simpl. lia.
Qed.

Lemma call_unresolved c req w :
  c_version c = Unresolved →
  c_version (call c req w).1.2 = Resolved (PyStr (newest_version w)) ∧
  probes (traffic (call c req w).1.1) = S (probes (traffic w)).
Proof.
  intros Hv. unfold call, resolve_version. rewrite Hv.
  cbv beta iota zeta. cbn [fst snd c_version].
  split; [done |]. rewrite !probes_emit. simpl. lia.
Qed.

Lemma calls_resolved c (reqs : list Request) w v :
  c_version c = Resolved v →
  (calls c reqs w).1.2 = c ∧
  probes (traffic (calls c reqs w).1.1) = probes (traffic w).
Proof.
  revert c w. induction reqs as [|req reqs IH]; intros c w Hv; [done |].
  destruct (call_resolved c req w v Hv) as [Hc Hp].
  simpl. destruct (call c req w) as [[w1 c1] r1]. simpl in Hc, Hp. subst c1.
  destruct (IH c w1 Hv) as [Hc' Hp'].
  destruct (calls c reqs w1) as [[w2 c2] rs]. simpl in *. split; congruence.
Qed.

Lemma call_traffic c req w :
  ∃ evs, evs ≠ [] ∧ traffic (call c req w).1.1 = (traffic w ++ evs)%list.
Proof.
  unfold call, resolve_version. destruct (c_version c); simpl.
  - exists [VersionProbe; RoundTrip req]. by rewrite <- app_assoc.
  - by exists [RoundTrip req].
Qed.
End SpecConnectorLemmas.

(** ** The model at work *)

(** The message under CPython 3. *)
Example unsupported_message_python3 :
  run (get_connector (CM:=spec_connector) cpython3 (PyStr "localhost")
         (passed (PyInt 8069)) (passed "carrier-pigeon") omitted omitted)
      quiet_net
  = (quiet_net,
     Raise (ConnectorError
       "The protocol 'carrier-pigeon' is not supported. Please choose a protocol among these ones: dict_keys(['xmlrpc', 'xmlrpc+ssl', 'netrpc'])")).
Proof. vm_compute. reflexivity. Qed.

(** The message under a Python 2 whose hash order puts [netrpc] first. *)
Example unsupported_message_python2 :
  run (get_connector (CM:=spec_connector)
         {| keys_is_view := false;
            keys_order := ["netrpc"; "xmlrpc+ssl"; "xmlrpc"] |}
         (PyStr "localhost") omitted (passed "carrier-pigeon") omitted omitted)
      quiet_net
  = (quiet_net,
     Raise (ConnectorError
       "The protocol 'carrier-pigeon' is not supported. Please choose a protocol among these ones: ['netrpc', 'xmlrpc+ssl', 'xmlrpc']")).
Proof. vm_compute. reflexivity. Qed.

(** The test runner's defaults ([tests/args.py]): the port is the string
    ['8069'], and it reaches the class as it is. *)
Example test_runner_defaults :
  run (get_connector (CM:=spec_connector) cpython3 (PyStr "localhost")
         (passed (PyStr "8069")) (passed "xmlrpc") omitted omitted) quiet_net
  = (quiet_net,
     Ok {| SpecConnector.c_class := ConnectorXMLRPC;
           SpecConnector.c_server := PyStr "localhost";
           SpecConnector.c_port := PyStr "8069";
           SpecConnector.c_timeout := PyInt 120;
           SpecConnector.c_version := SpecConnector.Unresolved |}).
Proof. vm_compute. reflexivity. Qed.

(** [if ssl:] tests the truth value: [ssl=1] selects the SSL class, and
    [ssl=0] the plain one. *)
Example json_ssl_truth_value {CM : ConnectorModule} (server : value) :
  get_json_connector server omitted omitted omitted (passed (PyInt 1))
  = new ConnectorJSONRPCSSL server (PyInt 8069) (PyInt 120) PyNone ∧
  get_json_connector server omitted omitted omitted (passed (PyInt 0))
  = new ConnectorJSONRPC server (PyInt 8069) (PyInt 120) PyNone.
Proof. split; reflexivity. Qed.

(** A login followed by a read, on a fresh connector: one probe, then the
    two round trips. *)
Example two_calls_traffic :
  let login := {| SpecConnector.service := "common";
                  SpecConnector.method := "login";
                  SpecConnector.args := [PyStr "db"; PyStr "admin"; PyStr "admin"] |} in
  let read := {| SpecConnector.service := "object";
                 SpecConnector.method := "execute";
                 SpecConnector.args := [PyStr "db"; PyInt 1; PyStr "admin"] |} in
  match run (get_json_connector (CM:=spec_connector) (PyStr "localhost")
               omitted omitted omitted omitted) quiet_net with
  | (w, Ok c) =>
      let '(w, c, rs) := SpecConnector.calls c [login; read] w in
      SpecConnector.traffic w
      = [SpecConnector.VersionProbe; SpecConnector.RoundTrip login;
         SpecConnector.RoundTrip read] ∧
      SpecConnector.c_version c = SpecConnector.Resolved (PyStr "7.0") ∧
      rs = [Ok (PyInt 1); Ok (PyInt 1)]
  | (_, Raise _) => False
  end.
Proof. vm_compute. repeat split. Qed.

(** ** The claims *)

(** C1.  An identifier that is not a key of the registry makes
    [get_connector] raise [ConnectorError] (the design document's
    UnsupportedProtocol) at once: the world is untouched, no connector is
    returned, and the message ends with the keys of [PROTOCOLS] as the
    interpreter enumerates them, so that every supported identifier, and
    no other, is listed in it. *)
Theorem get_connector_unsupported_protocol {CM : ConnectorModule}
    (py : Interpreter) (server : value) (port : param value)
    (protocol : string) (timeout version : param value) (w : World) :
  sound py →
  protocol ∉ dom PROTOCOLS →
  ∃ txt,
    run (get_connector py server port (passed protocol) timeout version) w
    = (w, Raise (ConnectorError txt)) ∧
    txt = "The protocol '" +:+ protocol +:+
          "' is not supported. Please choose a protocol among these ones: " +:+
          str_keys py ∧
    (∀ k, k ∈ keys_order py ↔ k ∈ dom PROTOCOLS) ∧
    (∀ k, k ∈ dom PROTOCOLS → occurs_in (py_repr k) txt).
Proof.
  intros Hpy Hp. eexists. split; [by apply get_connector_raise_case |].
  split; [done |]. split.
  - intros k. symmetry. by apply sound_keys.
  - intros k Hk. apply occurs_in_app_l, occurs_in_app_l, occurs_in_app_l.
    by apply occurs_in_str_keys, sound_keys.
Qed.

Lemma get_connector_unsupported_protocol_witness :
  sound cpython3 ∧
  ("carrier-pigeon" ∉ dom PROTOCOLS) ∧
  ∃ txt,
    run (get_connector (CM:=spec_connector) cpython3 (PyStr "localhost")
           omitted (passed "carrier-pigeon") omitted omitted) quiet_net
    = (quiet_net, Raise (ConnectorError txt)) ∧
    txt = "The protocol '" +:+ "carrier-pigeon" +:+
          "' is not supported. Please choose a protocol among these ones: " +:+
          str_keys cpython3 ∧
    (∀ k, k ∈ keys_order cpython3 ↔ k ∈ dom PROTOCOLS) ∧
    (∀ k, k ∈ dom PROTOCOLS → occurs_in (py_repr k) txt).
Proof.
  assert (Hp : "carrier-pigeon" ∉ dom PROTOCOLS)
    by (rewrite PROTOCOLS_keys; intros [?|[?|?]]; discriminate).
  split; [exact cpython3_sound |]. split; [exact Hp |].
  exact (get_connector_unsupported_protocol (CM:=spec_connector) cpython3
           (PyStr "localhost") omitted "carrier-pigeon" omitted omitted
           quiet_net cpython3_sound Hp).
Defined.

(** C2 (as stated, refuted).  The identifiers the design document names,
    [plain-text-rpc], [plain-text-rpc+tls] and [binary-rpc], are not keys
    of [PROTOCOLS]: asking for [plain-text-rpc] is answered with the
    unsupported-protocol error, while [xmlrpc] is a key. *)
Lemma registry_rejects_plain_text_rpc :
  PROTOCOLS !! "plain-text-rpc" = None ∧
  PROTOCOLS !! "plain-text-rpc+tls" = None ∧
  PROTOCOLS !! "binary-rpc" = None ∧
  PROTOCOLS !! "xmlrpc" = Some ConnectorXMLRPC ∧
  run (get_connector (CM:=spec_connector) cpython3 (PyStr "localhost")
         omitted (passed "plain-text-rpc") omitted omitted) quiet_net
  = (quiet_net,
     Raise (ConnectorError
       "The protocol 'plain-text-rpc' is not supported. Please choose a protocol among these ones: dict_keys(['xmlrpc', 'xmlrpc+ssl', 'netrpc'])")).
Proof. repeat split; vm_compute; reflexivity. Qed.

(** C2 (amended).  The registry is fixed and its keys are exactly
    [xmlrpc], [xmlrpc+ssl] and [netrpc]; neither JSON-RPC class is a value
    of the registry, and every other identifier, those of the JSON
    variants included, is refused by [get_connector] with
    [ConnectorError]. *)
Theorem registry_identifiers :
  (∀ p, p ∈ dom PROTOCOLS ↔ p = "xmlrpc" ∨ p = "xmlrpc+ssl" ∨ p = "netrpc") ∧
  (∀ p cls, PROTOCOLS !! p = Some cls →
            cls ≠ ConnectorJSONRPC ∧ cls ≠ ConnectorJSONRPCSSL) ∧
  (∀ (CM : ConnectorModule) py server port p timeout version (w : World),
     p ≠ "xmlrpc" → p ≠ "xmlrpc+ssl" → p ≠ "netrpc" →
     ∃ txt, run (get_connector py server port (passed p) timeout version) w
            = (w, Raise (ConnectorError txt))).
Proof.
  split; [exact PROTOCOLS_keys |]. split.
  - intros p cls [[_ ->]|[[_ ->]|[_ ->]]]%PROTOCOLS_lookup; done.
  - intros CM py server port p timeout version w H1 H2 H3.
    eexists. apply get_connector_raise_case.
    rewrite PROTOCOLS_keys. tauto.
Qed.

Lemma registry_identifiers_witness :
  ∃ txt, run (get_connector (CM:=spec_connector) cpython3 (PyStr "localhost")
                omitted (passed "jsonrpc") omitted omitted) quiet_net
         = (quiet_net, Raise (ConnectorError txt)).
Proof.
  apply (proj2 (proj2 registry_identifiers) spec_connector); discriminate.
Defined.

(** C3.  For an identifier that is a key of the registry,
    [get_connector] is the registry's class for that identifier applied to
    [(server, port, timeout, version)], the arguments as they were passed:
    same outcome, same effect on the world, nothing besides. *)
Theorem get_connector_instantiates_registry_class {CM : ConnectorModule}
    (py : Interpreter) (protocol : string)
    (server port timeout version : value) :
  protocol ∈ dom PROTOCOLS →
  ∃ cls, PROTOCOLS !! protocol = Some cls ∧
    get_connector py server (passed port) (passed protocol)
                  (passed timeout) (passed version)
    = new cls server port timeout version.
Proof.
  intros [cls Hcls]%elem_of_dom. exists cls. split; [done |].
  by rewrite (get_connector_new_case _ _ _ _ _ _ cls).
Qed.

Lemma get_connector_instantiates_registry_class_witness :
  "netrpc" ∈ dom PROTOCOLS ∧
  ∃ cls, PROTOCOLS !! "netrpc" = Some cls ∧
    get_connector (CM:=spec_connector) cpython3 (PyStr "localhost")
      (passed (PyInt 8070)) (passed "netrpc") (passed (PyInt 30))
      (passed (PyStr "6.1"))
    = new cls (PyStr "localhost") (PyInt 8070) (PyInt 30) (PyStr "6.1").
Proof.
  assert (Hp : "netrpc" ∈ dom PROTOCOLS) by (rewrite PROTOCOLS_keys; auto).
  split; [exact Hp |].
  exact (get_connector_instantiates_registry_class (CM:=spec_connector)
           cpython3 "netrpc" (PyStr "localhost") (PyInt 8070) (PyInt 30)
           (PyStr "6.1") Hp).
Defined.



(** C5.  Leaving out [port], [timeout] or [version] is passing [8069],
    [120] or [None], in both factories and for each parameter on its own;
    leaving out [ssl] is passing [False].  With everything left out the
    connector class is called on [(server, 8069, 120, None)]. *)
Theorem factory_defaults {CM : ConnectorModule} (py : Interpreter)
    (server : value) (port : param value) (protocol : param string)
    (timeout version ssl : param value) :
  get_connector py server port protocol timeout version
  = get_connector py server (passed (or_default (PyInt 8069) port)) protocol
      (passed (or_default (PyInt 120) timeout))
      (passed (or_default PyNone version))
  ∧ get_json_connector server port timeout version ssl
    = get_json_connector server (passed (or_default (PyInt 8069) port))
        (passed (or_default (PyInt 120) timeout))
        (passed (or_default PyNone version))
        (passed (or_default (PyBool false) ssl))
  ∧ get_connector py server omitted (passed "netrpc") omitted omitted
    = new ConnectorNetRPC server (PyInt 8069) (PyInt 120) PyNone
  ∧ get_json_connector server omitted omitted omitted omitted
    = new ConnectorJSONRPC server (PyInt 8069) (PyInt 120) PyNone.
Proof.
  split; [reflexivity |]. split; [reflexivity |]. split; [| reflexivity].
  by rewrite (get_connector_new_case _ _ _ _ _ _ ConnectorNetRPC).
Qed.

(** C9.  [protocol] has the default ['xmlrpc']: called with a server and
    nothing else, [get_connector] is [ConnectorXMLRPC] applied to
    [(server, 8069, 120, None)]; the missing protocol is not an error. *)
Theorem get_connector_default_protocol {CM : ConnectorModule}
    (py : Interpreter) (server : value) :
  get_connector py server omitted omitted omitted omitted
  = new ConnectorXMLRPC server (PyInt 8069) (PyInt 120) PyNone.
Proof.
  unfold get_connector. cbn [or_default].
  rewrite bool_decide_eq_false_2; [reflexivity |].
  intros Hn. apply Hn, PROTOCOLS_keys. auto.
Qed.

(** Whatever the connector classes do, the factories add nothing to it:
    an unsupported identifier leaves the world as it was, and otherwise
    the factory is the constructor call. *)
Lemma factories_add_no_effect {CM : ConnectorModule} (py : Interpreter)
    (server : value) (port : param value) (protocol : param string)
    (timeout version ssl : param value) (w : World) :
  (or_default "xmlrpc" protocol ∉ dom PROTOCOLS →
     (run (get_connector py server port protocol timeout version) w).1 = w) ∧
  (∀ cls, PROTOCOLS !! or_default "xmlrpc" protocol = Some cls →
     get_connector py server port protocol timeout version
     = new cls server (or_default (PyInt 8069) port)
           (or_default (PyInt 120) timeout) (or_default PyNone version)) ∧
  get_json_connector server port timeout version ssl
  = new (if truthy (or_default (PyBool false) ssl)
         then ConnectorJSONRPCSSL else ConnectorJSONRPC)
        server (or_default (PyInt 8069) port)
        (or_default (PyInt 120) timeout) (or_default PyNone version).
Proof.
  split; [| split].
  - intros Hp.
    change (get_connector py server port protocol timeout version)
      with (get_connector py server port
              (passed (or_default "xmlrpc" protocol)) timeout version).
    by rewrite get_connector_raise_case.
  - intros cls Hcls.
    change (get_connector py server port protocol timeout version)
      with (get_connector py server port
              (passed (or_default "xmlrpc" protocol)) timeout version).
    by apply get_connector_new_case.
  - unfold get_json_connector. by destruct (truthy _).
Qed.

(** C6.  With the connector classes of the design document, neither
    factory touches the network, whatever it is given and whether it
    returns or raises: the world after is the world before.  Traffic
    appears with a remote call, which always adds some. *)
Theorem factories_perform_no_io (py : Interpreter) (server : value)
    (port : param value) (protocol : param string)
    (timeout version ssl : param value) (w : SpecConnector.Net) :
  (run (get_connector (CM:=spec_connector) py server port protocol
          timeout version) w).1 = w ∧
  (run (get_json_connector (CM:=spec_connector) server port timeout
          version ssl) w).1 = w ∧
  ∀ c req, ∃ evs, evs ≠ [] ∧
    SpecConnector.traffic (SpecConnector.call c req w).1.1
    = (SpecConnector.traffic w ++ evs)%list.
Proof.
  destruct (factories_add_no_effect (CM:=spec_connector)
              py server port protocol timeout version ssl w)
    as (Hout & Hin & Hjson).
  split; [| split].
  - destruct (decide (or_default "xmlrpc" protocol ∈ dom PROTOCOLS))
      as [[cls Hcls]%elem_of_dom | Hp].
    + by rewrite (Hin cls Hcls).
    + by apply Hout.
  - by rewrite Hjson.
  - intros c req. apply call_traffic.
Qed.

(** C7.  A connector of the design document built with [version=None]
    starts unresolved and without traffic of its own; its first call
    probes the server once and pins the version, its second call finds
    the version pinned: after two calls, and after any longer session,
    exactly one probe has been sent and the pinned version has not
    changed. *)
Theorem version_probed_once (cls : ConnectorClass)
    (server port timeout : value) (r1 r2 : SpecConnector.Request)
    (rest : list SpecConnector.Request) (w : SpecConnector.Net) :
  ∃ c, run (SpecConnector.construct cls server port timeout PyNone) w
       = (w, Ok c) ∧
    SpecConnector.c_version c = SpecConnector.Unresolved ∧
    let '(w1, c1, _) := SpecConnector.call c r1 w in
    let '(w2, c2, _) := SpecConnector.call c1 r2 w1 in
    let '(w3, c3, _) := SpecConnector.calls c2 rest w2 in
    let pinned :=
      SpecConnector.Resolved (PyStr (SpecConnector.newest_version w)) in
    let sent := λ w', SpecConnector.probes (SpecConnector.traffic w') in
    sent w1 = S (sent w) ∧ sent w2 = S (sent w) ∧ sent w3 = S (sent w) ∧
    SpecConnector.c_version c1 = pinned ∧
    SpecConnector.c_version c2 = pinned ∧
    SpecConnector.c_version c3 = pinned.
Proof.
  eexists. split; [reflexivity |]. split; [reflexivity |].
  set (c := {| SpecConnector.c_class := cls |}).
  destruct (call_unresolved c r1 w eq_refl) as [Hv1 Hp1].
  destruct (SpecConnector.call c r1 w) as [[w1 c1] o1]. simpl in Hv1, Hp1.
  destruct (call_resolved c1 r2 w1 _ Hv1) as [Hc2 Hp2].
  destruct (SpecConnector.call c1 r2 w1) as [[w2 c2] o2]. simpl in Hc2, Hp2.
  subst c2.
  destruct (calls_resolved c1 rest w2 _ Hv1) as [Hc3 Hp3].
  destruct (SpecConnector.calls c1 rest w2) as [[w3 c3] o3].
  simpl in Hc3, Hp3. subst c3.
  simpl. repeat split; congruence.
Qed.




(** ** Beyond the claims: the factories *)

(** X1.  [get_connector] has two behaviours and no third.  Either the
    identifier (['xmlrpc'] when left out) is not a key of [PROTOCOLS], and
    the call raises [ConnectorError] from whatever world it starts in,
    leaving it as it was; or the registry maps it to one of
    [ConnectorXMLRPC], [ConnectorXMLRPCSSL], [ConnectorNetRPC], and the
    call is that class applied to the arguments with their defaults.  The
    subscript [PROTOCOLS[protocol]] therefore never raises [KeyError], and
    no identifier reaches a JSON class. *)
Theorem get_connector_outcomes {CM : ConnectorModule} (py : Interpreter)
    (server : value) (port : param value) (protocol : param string)
    (timeout version : param value) :
  ((or_default "xmlrpc" protocol ∉ dom PROTOCOLS) ∧
   ∀ w, ∃ txt,
     run (get_connector py server port protocol timeout version) w
     = (w, Raise (ConnectorError txt)))
  ∨
  (∃ cls,
     PROTOCOLS !! or_default "xmlrpc" protocol = Some cls ∧
     (cls = ConnectorXMLRPC ∨ cls = ConnectorXMLRPCSSL ∨
      cls = ConnectorNetRPC) ∧
     get_connector py server port protocol timeout version
     = new cls server (or_default (PyInt 8069) port)
           (or_default (PyInt 120) timeout) (or_default PyNone version)).
Proof.
  change (get_connector py server port protocol timeout version)
    with (get_connector py server port
            (passed (or_default "xmlrpc" protocol)) timeout version).
  destruct (PROTOCOLS !! or_default "xmlrpc" protocol) as [cls|] eqn:Hp.
  - right. exists cls. split; [done |]. split.
    + apply PROTOCOLS_lookup in Hp. tauto.
    + by apply get_connector_new_case.
  - left. apply not_elem_of_dom in Hp. split; [done |].
    intros w. eexists. by apply get_connector_raise_case.
Qed.

(** X2.  No two identifiers of the registry are synonyms: different keys
    of [PROTOCOLS] stand for different connector classes. *)
Theorem PROTOCOLS_no_synonyms (p q : string) (cp cq : ConnectorClass) :
  PROTOCOLS !! p = Some cp →
  PROTOCOLS !! q = Some cq →
  p ≠ q →
  cp ≠ cq.
Proof.
  intros Hp%PROTOCOLS_lookup Hq%PROTOCOLS_lookup Hpq.
  destruct Hp as [[-> ->]|[[-> ->]|[-> ->]]];
    destruct Hq as [[-> ->]|[[-> ->]|[-> ->]]]; done.
Qed.

Lemma PROTOCOLS_no_synonyms_witness :
  PROTOCOLS !! "xmlrpc" = Some ConnectorXMLRPC ∧
  PROTOCOLS !! "xmlrpc+ssl" = Some ConnectorXMLRPCSSL ∧
  "xmlrpc" ≠ "xmlrpc+ssl" ∧
  ConnectorXMLRPC ≠ ConnectorXMLRPCSSL.
Proof.
  assert (H1 : PROTOCOLS !! "xmlrpc" = Some ConnectorXMLRPC)
    by (vm_compute; reflexivity).
  assert (H2 : PROTOCOLS !! "xmlrpc+ssl" = Some ConnectorXMLRPCSSL)
    by (vm_compute; reflexivity).
  assert (H3 : "xmlrpc" ≠ "xmlrpc+ssl") by discriminate.
  split; [exact H1 |]. split; [exact H2 |]. split; [exact H3 |].
  exact (PROTOCOLS_no_synonyms "xmlrpc" "xmlrpc+ssl" _ _ H1 H2 H3).
Defined.

(** X3.  [get_json_connector] tests the truth value of [ssl], not whether
    it is [True].  Among [None], booleans, integers and strings, the
    plain class is chosen when [ssl] is left out or is [None], [False],
    [0] or the empty string, and the SSL class for everything else, a
    string such as ['False'] included. *)
Theorem get_json_connector_truth_value {CM : ConnectorModule}
    (server : value) (port timeout version ssl : param value) :
  let falsy :=
    ssl = omitted ∨ ssl = passed PyNone ∨ ssl = passed (PyBool false) ∨
    ssl = passed (PyInt 0) ∨ ssl = passed (PyStr "") in
  (falsy →
   get_json_connector server port timeout version ssl
   = new ConnectorJSONRPC server (or_default (PyInt 8069) port)
         (or_default (PyInt 120) timeout) (or_default PyNone version)) ∧
  (¬ falsy →
   get_json_connector server port timeout version ssl
   = new ConnectorJSONRPCSSL server (or_default (PyInt 8069) port)
         (or_default (PyInt 120) timeout) (or_default PyNone version)).
Proof.
  cbv zeta. split.
  - intros [->|[->|[->|[->| ->]]]]; reflexivity.
  - intros Hn. unfold get_json_connector.
    destruct ssl as [|[|[]|n|s]]; simpl;
      try reflexivity; try (exfalso; apply Hn; tauto).
    + destruct (Z.eqb_spec n 0) as [->|]; [exfalso; apply Hn; tauto | done].
    + destruct s; [exfalso; apply Hn; tauto | done].
Qed.

Lemma get_json_connector_truth_value_witness :
  get_json_connector (CM:=spec_connector) (PyStr "localhost") omitted
    omitted omitted (passed (PyStr "False"))
  = new ConnectorJSONRPCSSL (PyStr "localhost") (PyInt 8069) (PyInt 120)
        PyNone.
Proof.
  apply (proj2 (get_json_connector_truth_value (CM:=spec_connector)
                  (PyStr "localhost") omitted omitted omitted
                  (passed (PyStr "False")))).
  intros [H|[H|[H|[H|H]]]]; discriminate H.
Defined.

(** ** Beyond the claims: the [Inspect] service *)

(** A computation that raises stops the sequence it is in; one that
    returns hands its value and its world to what follows. *)
Lemma bind_raise {W A B} (m : M W A) (k : A → M W B) (w w' : W) (e : exn) :
  run m w = (w', Raise e) → run (x <- m ;; k x) w = (w', Raise e).
Proof. unfold run, bind. by intros ->. Qed.

Lemma bind_ok {W A B} (m : M W A) (k : A → M W B) (w w' : W) (a : A) :
  run m w = (w', Ok a) → run (x <- m ;; k x) w = run (k a) w'.
Proof. unfold run, bind. by intros ->. Qed.

(** X4.  A backend that cannot be imported fails the method that needs
    it, when that method is called: [relations], [scan_on_change] and
    [dependencies] raise what their own import raised, in the environment
    the import left behind, and no backend code runs.  Building the
    [Inspect] object needs none of the backends. *)
Theorem inspect_import_failure {IB : InspectBackends} (oerp : OERP)
    (w w' : Env) (e : exn) :
  (run import_Relations w = (w', Raise e) →
   ∀ models maxdepth whitelist blacklist attrs_whitelist attrs_blacklist
     config,
     run (relations (Inspect__init__ oerp) models maxdepth whitelist
            blacklist attrs_whitelist attrs_blacklist config) w
     = (w', Raise e)) ∧
  (run import_scan_on_change w = (w', Raise e) →
   ∀ models,
     run (scan_on_change (Inspect__init__ oerp) models) w = (w', Raise e)) ∧
  (run import_Dependencies w = (w', Raise e) →
   ∀ models models_blacklist restrict config,
     run (dependencies (Inspect__init__ oerp) models models_blacklist
            restrict config) w
     = (w', Raise e)).
Proof.
  split; [| split]; intros Himp; intros;
    unfold relations, scan_on_change, dependencies;
    by apply bind_raise.
Qed.

Lemma inspect_import_failure_witness :
  run (relations (Inspect__init__ (IB:=bare_install) "session")
         (PyList [PyAtom (PyStr "res.users")])
         omitted omitted omitted omitted omitted omitted) []
  = (["oerplib.service.inspect.relations"],
     Raise (OtherError "ImportError" "cannot import name Relations")) ∧
  run (scan_on_change (Inspect__init__ (IB:=bare_install) "session")
         (PyList [PyAtom (PyStr "sale.order")])) []
  = (["oerplib.service.inspect.on_change"],
     Raise (OtherError "ImportError" "cannot import name scan_on_change")) ∧
  run (dependencies (Inspect__init__ (IB:=bare_install) "session")
         omitted omitted omitted omitted) []
  = (["oerplib.service.inspect.dependencies"],
     Raise (OtherError "ImportError" "cannot import name Dependencies")).
Proof.
  split; [| split].
  - apply (proj1 (inspect_import_failure (IB:=bare_install) "session" [] _ _)).
    reflexivity.
  - apply (proj1 (proj2 (inspect_import_failure (IB:=bare_install)
                           "session" [] _ _))).
    reflexivity.
  - apply (proj2 (proj2 (inspect_import_failure (IB:=bare_install)
                           "session" [] _ _))).
    reflexivity.
Defined.

(** X5.  When the import succeeds, each [Inspect] method is one call of
    what was imported, run in the environment after the import: on the
    session the object was built with, then the arguments in the order of
    the method's signature.  What the caller leaves out arrives as [1]
    for [maxdepth], [False] for [restrict] and [None] for every list and
    for [config]; it does not arrive as ['*'], an empty list or an empty
    dict. *)
Theorem inspect_delegates {IB : InspectBackends} (oerp : OERP) (w w' : Env) :
  (∀ Relations models maxdepth whitelist blacklist attrs_whitelist
     attrs_blacklist config,
     run import_Relations w = (w', Ok Relations) →
     run (relations (Inspect__init__ oerp) models maxdepth whitelist
            blacklist attrs_whitelist attrs_blacklist config) w
     = run (Relations oerp models
              (or_default (PyAtom (PyInt 1)) maxdepth)
              (or_default (PyAtom PyNone) whitelist)
              (or_default (PyAtom PyNone) blacklist)
              (or_default (PyAtom PyNone) attrs_whitelist)
              (or_default (PyAtom PyNone) attrs_blacklist)
              (or_default (PyAtom PyNone) config)) w') ∧
  (∀ scan models,
     run import_scan_on_change w = (w', Ok scan) →
     run (scan_on_change (Inspect__init__ oerp) models) w
     = run (scan oerp models) w') ∧
  (∀ Dependencies models models_blacklist restrict config,
     run import_Dependencies w = (w', Ok Dependencies) →
     run (dependencies (Inspect__init__ oerp) models models_blacklist
            restrict config) w
     = run (Dependencies oerp
              (or_default (PyAtom PyNone) models)
              (or_default (PyAtom PyNone) models_blacklist)
              (or_default (PyAtom (PyBool false)) restrict)
              (or_default (PyAtom PyNone) config)) w').
Proof.
  split; [| split]; intros; unfold relations, scan_on_change, dependencies;
    by erewrite bind_ok.
Qed.

Lemma inspect_delegates_witness :
  run (relations (Inspect__init__ (IB:=echo_install) "session")
         (PyList [PyAtom (PyStr "res.users")])
         (passed (PyAtom (PyInt 2))) omitted omitted omitted omitted omitted)
      []
  = (["oerplib.service.inspect.relations"],
     Ok ("session",
         [PyList [PyAtom (PyStr "res.users")]; PyAtom (PyInt 2);
          PyAtom PyNone; PyAtom PyNone; PyAtom PyNone; PyAtom PyNone;
          PyAtom PyNone])) ∧
  run (dependencies (Inspect__init__ (IB:=echo_install) "session")
         omitted omitted omitted omitted) []
  = (["oerplib.service.inspect.dependencies"],
     Ok ("session",
         [PyAtom PyNone; PyAtom PyNone; PyAtom (PyBool false);
          PyAtom PyNone])).
Proof.
  split.
  - rewrite (proj1 (inspect_delegates (IB:=echo_install) "session" []
                      ["oerplib.service.inspect.relations"])
               (λ oerp a b c d e f g, ret (oerp, [a; b; c; d; e; f; g])));
      reflexivity.
  - rewrite (proj2 (proj2 (inspect_delegates (IB:=echo_install) "session" []
                             ["oerplib.service.inspect.dependencies"]))
               (λ oerp a b c d, ret (oerp, [a; b; c; d])));
      reflexivity.
Defined.
